(** * LinkDetect: a shallow embedding of [src/app.py]

    The feature extractor [extract_features_from_url] and the Flask view
    [predict] of LinkDetect, modelled over Stdlib strings.  URLs are taken to
    be ASCII text: Python's [str.lower], [str.isdigit], [str.isupper] and the
    regex class [\d] are modelled on their ASCII behaviour. *)

From Stdlib Require Import String Ascii List ZArith Bool Lia.
Import ListNotations.
Open Scope string_scope.

(** ** Character primitives *)

Definition is_digit (c : ascii) : bool :=
  let n := nat_of_ascii c in (48 <=? n)%nat && (n <=? 57)%nat.

(** [c.isupper()] on one ASCII character. *)
Definition is_upper (c : ascii) : bool :=
  let n := nat_of_ascii c in (65 <=? n)%nat && (n <=? 90)%nat.

Definition lower_char (c : ascii) : ascii :=
  if is_upper c then ascii_of_nat (nat_of_ascii c + 32) else c.

(** [s.lower()] *)
Fixpoint lower (s : string) : string :=
  match s with
  | EmptyString => EmptyString
  | String c t => String (lower_char c) (lower t)
  end.

(** ** String primitives *)

(** [hay.startswith(p)] *)
Fixpoint starts_with (p s : string) : bool :=
  match p, s with
  | EmptyString, _ => true
  | String a p', String b s' => Ascii.eqb a b && starts_with p' s'
  | String _ _, EmptyString => false
  end.

(** [needle in hay] *)
Fixpoint contains (needle hay : string) : bool :=
  starts_with needle hay ||
  match hay with
  | EmptyString => false
  | String _ t => contains needle t
  end.

(** [s.count(c)] for a one-character argument. *)
Fixpoint count_char (c : ascii) (s : string) : nat :=
  match s with
  | EmptyString => 0
  | String d t => (if Ascii.eqb d c then 1 else 0) + count_char c t
  end.

(** [sum(f(c) for c in s)] for a boolean character test [f]. *)
Fixpoint count_pred (f : ascii -> bool) (s : string) : nat :=
  match s with
  | EmptyString => 0
  | String d t => (if f d then 1 else 0) + count_pred f t
  end.

(** [s.split(sep)] for a one-character separator: every occurrence of
    [sep] ends a piece; there is always at least one piece. *)
Fixpoint split_on (sep : ascii) (s : string) : list string :=
  match s with
  | EmptyString => [EmptyString]
  | String c t =>
      let rest := split_on sep t in
      if Ascii.eqb c sep then EmptyString :: rest
      else match rest with
           | p :: ps => String c p :: ps
           | [] => [String c EmptyString]
           end
  end.

(** ** The two regular expressions of the extractor

    [r'\d+\.\d+\.\d+\.\d+'] and [r":\d+"] are sequences of single-character
    classes, each taken once or repeated; [\d+] is [\d] followed by [\d*]. *)

Inductive cls := CDigit | CLit (a : ascii).

Inductive tok := One (k : cls) | Star (k : cls).

Definition cls_ok (k : cls) (c : ascii) : bool :=
  match k with
  | CDigit => is_digit c
  | CLit a => Ascii.eqb c a
  end.

(** [re_prefix s ts]: the pattern [ts] matches a prefix of [s]
    (backtracking over every split of a [Star]). *)
Fixpoint re_prefix (s : string) : list tok -> bool :=
  fix go (ts : list tok) : bool :=
    match ts with
    | [] => true
    | One k :: ts' =>
        match s with
        | EmptyString => false
        | String c s' => cls_ok k c && re_prefix s' ts'
        end
    | Star k :: ts' =>
        match s with
        | EmptyString => false
        | String c s' => cls_ok k c && re_prefix s' ts
        end || go ts'
    end.

(** [re.match(p, s)]: a match anchored at position 0. *)
Definition re_match (ts : list tok) (s : string) : bool := re_prefix s ts.

(** [re.search(p, s)]: a match starting at some position. *)
Fixpoint re_search (ts : list tok) (s : string) : bool :=
  re_prefix s ts ||
  match s with
  | EmptyString => false
  | String _ t => re_search ts t
  end.

Definition digits_plus : list tok := [One CDigit; Star CDigit].

(** [r'\d+\.\d+\.\d+\.\d+'] *)
Definition ip_re : list tok :=
  digits_plus ++ [One (CLit ".")] ++ digits_plus ++ [One (CLit ".")] ++
  digits_plus ++ [One (CLit ".")] ++ digits_plus.

(** [r":\d+"] *)
Definition port_re : list tok := One (CLit ":") :: digits_plus.

(** ** [extract_features_from_url] *)

Definition b2z (b : bool) : Z := if b then 1%Z else 0%Z.
Definition zlen (s : string) : Z := Z.of_nat (String.length s).

Definition suspicious_words : list string :=
  ["login"; "verify"; "secure"; "account"; "update"; "confirm"; "bank";
   "reset"; "free"; "click"; "offer"; "win"; "paypal"; "ebay"].

Definition encoding_tags : list string := ["base64"; "javascript:"; "data:"].

Definition special_chars : list ascii := ["@"; "?"; "="; "&"; "-"; "_"]%char.

Definition extract_features_from_url (url : string) : list Z :=
  [ zlen url;
    Z.of_nat (count_char "." url);
    Z.of_nat (fold_right (fun c acc => count_char c url + acc)%nat 0%nat special_chars);
    b2z (re_match ip_re url);
    b2z (contains "https" (lower url));
    Z.of_nat (List.length (split_on "/" url));
    b2z (existsb (fun tag => contains tag (lower url)) encoding_tags);
    Z.of_nat (count_pred is_digit url);
    Z.of_nat (count_pred is_upper url);
    (if (2 <? List.length (split_on "/" url))%nat
     then zlen (nth 2 (split_on "/" url) EmptyString) else 0%Z);
    (if (2 <? List.length (split_on "." url))%nat
     then (Z.of_nat (List.length (split_on "." url)) - 2)%Z else 0%Z);
    b2z (re_search port_re url);
    (if contains "?" url
     then zlen (nth 1 (split_on "?" url) EmptyString) else 0%Z);
    b2z (existsb (fun word => contains word (lower url)) suspicious_words) ].

(** [features[i]] *)
Definition feature (i : nat) (url : string) : Z :=
  nth i (extract_features_from_url url) 0%Z.

(** ** The request body

    [request.get_json()] as a JSON value; [data] is the decoded object. *)

#[local] Set Warnings "-register-all".
Inductive JVal :=
| JNull
| JBool (b : bool)
| JNum (z : Z)
| JStr (s : string)
| JArr (l : list JVal)
| JObj (l : list (string * JVal)).

(** Python truthiness, as tested by [if not url]. *)
Definition truthy (v : JVal) : bool :=
  match v with
  | JNull => false
  | JBool b => b
  | JNum z => negb (Z.eqb z 0)
  | JStr s => negb (String.eqb s EmptyString)
  | JArr l => negb (Nat.eqb (List.length l) 0)
  | JObj l => negb (Nat.eqb (List.length l) 0)
  end.

(** [data.get(key)]: the last binding of [key] (a JSON object with a
    repeated key keeps the last one); [None] (here [JNull]) when absent. *)
Definition dict_get (key : string) (data : list (string * JVal)) : JVal :=
  match find (fun kv => String.eqb (fst kv) key) (rev data) with
  | Some kv => snd kv
  | None => JNull
  end.

(** ** Effects of [predict]

    Calls to the loaded collaborators are recorded in a trace; the history
    file [classified_history.csv] is a list of rows. An exception carries
    its message [str(e)]. *)

Inductive event :=
| EvExtract (url : JVal)
| EvTransform (rows : list (list Z))
| EvPredict
| EvDecode
| EvAppend (row : string * string * string).

Record St := mkSt { history : list (string * string * string); trace : list event }.

Definition M (A : Type) : Type := St -> (string + A) * St.

Definition ret {A} (a : A) : M A := fun st => (inr a, st).
Definition raise {A} (msg : string) : M A := fun st => (inl msg, st).
Definition bind {A B} (m : M A) (k : A -> M B) : M B :=
  fun st => match m st with
            | (inl e, st') => (inl e, st')
            | (inr a, st') => k a st'
            end.
(** [try: m except Exception as e: h(e)] *)
Definition try_except {A} (m : M A) (h : string -> M A) : M A :=
  fun st => match m st with
            | (inl e, st') => h e st'
            | (inr a, st') => (inr a, st')
            end.
Definition emit (ev : event) : M unit :=
  fun st => (inr tt, mkSt (history st) (trace st ++ [ev])).
(** A call that may raise. *)
Definition lift {A} (r : string + A) : M A := fun st => (r, st).

Notation "x <- m ;; k" := (bind m (fun x => k))
  (at level 61, m at next level, right associativity).
Notation "m ;;; k" := (bind m (fun _ => k)) (at level 61, right associativity).

(** [xs[0]] on the numpy array returned by [model.predict] or
    [label_encoder.inverse_transform]: on an empty array numpy raises an
    [IndexError] whose [str] is the message below. *)
Definition index0 {A} (xs : list A) : M A :=
  match xs with
  | x :: _ => ret x
  | [] => raise "index 0 is out of bounds for axis 0 with size 0"
  end.

(** [with open(..., mode="a") as file: csv.writer(file).writerow(row)] *)
Definition append_row (open_result : string + unit) (row : string * string * string) : M unit :=
  lift open_result ;;;
  emit (EvAppend row) ;;;
  (fun st => (inr tt, mkSt (history st ++ [row]) (trace st))).

(** ** The Flask view [predict] *)

Definition override_tags : list string := ["vulnweb"; "acunetix"; "testphp"; "demo"].
Definition dangerous_labels : list string := ["phishing"; "malicious"; "unsafe"].

Definition is_dangerous (label : string) : bool :=
  existsb (fun d => String.eqb (lower label) d) dangerous_labels.

Inductive response :=
| Prediction (label : string)         (* [jsonify({'prediction': ...})], 200 *)
| Error (msg : string) (code : Z).    (* [jsonify({'error': ...}), code] *)

(** [str(e)] for the exception raised by [extract_features_from_url] on a
    non-string JSON value: [len] fails on a bool or an int, a dict has no
    [count], and [re.match] refuses a list (Python 3.12 wording). JSON
    numbers are modelled as ints. Null and string values do not reach it. *)
Definition nonstr_error (v : JVal) : string :=
  match v with
  | JBool _ => "object of type 'bool' has no len()"
  | JNum _ => "object of type 'int' has no len()"
  | JArr _ => "expected string or bytes-like object, got 'list'"
  | JObj _ => "'dict' object has no attribute 'count'"
  | JNull => "object of type 'NoneType' has no len()"
  | JStr _ => EmptyString
  end.

Section Predict.

(** The objects loaded by [joblib.load] at start-up, the history file and
    the clock. A [inl msg] result is an exception raised by the call. *)
Variables Row Idx : Type.
Record Env := mkEnv {
  scaler_transform : list (list Z) -> string + list Row;
  model_predict : list Row -> string + list Idx;
  label_inverse_transform : list Idx -> string + list string;
  (* outcome of the [with open(...)] block: [inl msg] when opening the
     file or writing the row raises, the row then not being recorded *)
  open_history : string + unit;
  now_isoformat : string }.

Variable env : Env.

Definition classify_url (url : string) : M response :=
  emit (EvExtract (JStr url)) ;;;
  let features := extract_features_from_url url in
  emit (EvTransform [features]) ;;;
  scaled <- lift (scaler_transform env [features]) ;;
  emit EvPredict ;;;
  encoded <- lift (model_predict env scaled) ;;
  prediction_encoded <- index0 encoded ;;
  emit EvDecode ;;;
  labels <- lift (label_inverse_transform env [prediction_encoded]) ;;
  decoded <- index0 labels ;;
  let prediction_label :=
    if existsb (fun tag => contains tag (lower url)) override_tags
    then "phishing" else decoded in
  (if is_dangerous prediction_label
   then append_row (open_history env) (now_isoformat env, url, prediction_label)
   else ret tt) ;;;
  ret (Prediction prediction_label).

Definition predict (data : list (string * JVal)) : M response :=
  let url := dict_get "url" data in
  if negb (truthy url) then ret (Error "No URL provided" 400)
  else try_except
         (match url with
          | JStr s => classify_url s
          | _ => (* [len], [count] or [re.match] on a non-string raises *)
                 emit (EvExtract url) ;;; raise (nonstr_error url)
          end)
         (fun e => ret (Error e 500)).

End Predict.

Arguments scaler_transform {Row Idx}.
Arguments model_predict {Row Idx}.
Arguments label_inverse_transform {Row Idx}.
Arguments open_history {Row Idx}.
Arguments now_isoformat {Row Idx}.
Arguments classify_url {Row Idx}.
Arguments predict {Row Idx}.

(** ** Spec-side notions *)

(** The text after the first occurrence of [c], if any. *)
Fixpoint after_first (c : ascii) (s : string) : option string :=
  match s with
  | EmptyString => None
  | String d t => if Ascii.eqb d c then Some t else after_first c t
  end.

(** "Length of the substring after the first ? character if present, else 0". *)
Definition query_length_spec (url : string) : Z :=
  match after_first "?" url with
  | Some r => zlen r
  | None => 0%Z
  end.

(** Every character is a decimal digit. *)
Fixpoint all_digits (s : string) : bool :=
  match s with
  | EmptyString => true
  | String c t => is_digit c && all_digits t
  end.

(** "one or more digits" *)
Definition digit_run (d : string) : Prop := d <> EmptyString /\ all_digits d = true.

(** "the URL begins with one or more digits, ".", one or more digits, ".",
    one or more digits, ".", one or more digits" *)
Definition dotted_quad_prefix (u : string) : Prop :=
  exists d1 d2 d3 d4 rest,
    digit_run d1 /\ digit_run d2 /\ digit_run d3 /\ digit_run d4 /\
    u = d1 ++ "." ++ d2 ++ "." ++ d3 ++ "." ++ d4 ++ rest.

(** Every character belongs to the class [k]. *)
Fixpoint all_cls (k : cls) (s : string) : bool :=
  match s with
  | EmptyString => true
  | String c t => cls_ok k c && all_cls k t
  end.

(** Concrete collaborators: a decoder answering "benign", or "phishing"
    with a history file that cannot be opened. *)
Definition env_benign : Env Z nat :=
  mkEnv Z nat (fun _ => inr [0%Z]) (fun _ => inr [0%nat]) (fun _ => inr ["benign"])
        (inr tt) "2026-01-01T00:00:00".

Definition env_sink_fails : Env Z nat :=
  mkEnv Z nat (fun _ => inr [0%Z]) (fun _ => inr [0%nat]) (fun _ => inr ["phishing"])
        (inl "PermissionError") "2026-01-01T00:00:00".

(** Concrete collaborators: a scaler that raises, and a model that
    predicts no row. *)
Definition env_scaler_fails : Env Z nat :=
  mkEnv Z nat (fun _ => inl "ValueError") (fun _ => inr [0%nat]) (fun _ => inr ["benign"])
        (inr tt) "2026-01-01T00:00:00".

Definition env_empty_model : Env Z nat :=
  mkEnv Z nat (fun _ => inr [0%Z]) (fun _ => inr []) (fun _ => inr ["benign"])
        (inr tt) "2026-01-01T00:00:00".

(** ** Lemmas on the string primitives *)

Lemma split_on_length_pos (sep : ascii) (s : string) :
  (1 <= List.length (split_on sep s))%nat.
Proof.
  induction s as [|c t IH]; simpl; [lia|].
  destruct (Ascii.eqb c sep); simpl; [lia|].
  destruct (split_on sep t); simpl; lia.
Qed.

(** ** Lemmas on the regular-expression matcher *)

Lemma all_cls_digit (s : string) : all_cls CDigit s = all_digits s.
Proof. induction s as [|c t IH]; simpl; [reflexivity|now rewrite IH]. Qed.

Lemma re_prefix_one (k : cls) (ts : list tok) (s : string) :
  re_prefix s (One k :: ts) = true <->
  exists c s', s = String c s' /\ cls_ok k c = true /\ re_prefix s' ts = true.
Proof.
  destruct s as [|c s']; cbn [re_prefix].
  - split; [discriminate|]. intros (c & s' & E & _); discriminate.
  - rewrite andb_true_iff. split.
    + intros [H1 H2]. now exists c, s'.
    + intros (c' & s'' & E & H1 & H2). injection E as -> ->. now split.
Qed.

Lemma re_prefix_star (k : cls) (ts : list tok) (s : string) :
  re_prefix s (Star k :: ts) = true <->
  exists p r, s = p ++ r /\ all_cls k p = true /\ re_prefix r ts = true.
Proof.
  induction s as [|c s' IH]; cbn [re_prefix].
  - split.
    + intros H. exists EmptyString, EmptyString. now split.
    + intros (p & r & E & _ & H). destruct p; [|discriminate].
      simpl in E. subst r. exact H.
  - rewrite orb_true_iff, andb_true_iff. split.
    + intros [[H1 H2] | H].
      * apply IH in H2 as (p & r & E & Hp & Hr).
        exists (String c p), r. subst s'. simpl. rewrite H1, Hp. now split.
      * now exists EmptyString, (String c s').
    + intros (p & r & E & Hp & Hr). destruct p as [|c' p'].
      * simpl in E. subst r. now right.
      * simpl in E, Hp. injection E as -> E. apply andb_true_iff in Hp as [H1 H2].
        left. split; [exact H1|]. apply IH. now exists p', r.
Qed.

(** [\x+] followed by [ts]. *)
Lemma re_prefix_plus (k : cls) (ts : list tok) (s : string) :
  re_prefix s (One k :: Star k :: ts) = true <->
  exists d r, s = d ++ r /\ d <> EmptyString /\ all_cls k d = true /\
              re_prefix r ts = true.
Proof.
  rewrite re_prefix_one. split.
  - intros (c & s' & E & Hc & H). apply re_prefix_star in H as (p & r & E' & Hp & Hr).
    exists (String c p), r. subst. simpl. rewrite Hc, Hp.
    repeat split; [discriminate|exact Hr].
  - intros (d & r & E & Hd & Ha & Hr). destruct d as [|c p]; [contradiction|].
    simpl in Ha. apply andb_true_iff in Ha as [Hc Hp].
    exists c, (p ++ r). subst s. repeat split; [exact Hc|].
    apply re_prefix_star. now exists p, r.
Qed.

Lemma cls_ok_dot (c : ascii) : cls_ok (CLit ".") c = true -> c = "."%char.
Proof. simpl. apply Ascii.eqb_eq. Qed.

Lemma re_match_ip (u : string) : re_match ip_re u = true <-> dotted_quad_prefix u.
Proof.
  unfold re_match, ip_re, digits_plus. cbn [app].
  split.
  - intros H.
    apply re_prefix_plus in H as (d1 & r1 & -> & N1 & A1 & H).
    apply re_prefix_one in H as (c1 & s1 & -> & C1 & H). apply cls_ok_dot in C1 as ->.
    apply re_prefix_plus in H as (d2 & r2 & -> & N2 & A2 & H).
    apply re_prefix_one in H as (c2 & s2 & -> & C2 & H). apply cls_ok_dot in C2 as ->.
    apply re_prefix_plus in H as (d3 & r3 & -> & N3 & A3 & H).
    apply re_prefix_one in H as (c3 & s3 & -> & C3 & H). apply cls_ok_dot in C3 as ->.
    apply re_prefix_plus in H as (d4 & r4 & -> & N4 & A4 & _).
    rewrite all_cls_digit in A1, A2, A3, A4.
    exists d1, d2, d3, d4, r4. unfold digit_run. repeat split; assumption.
  - intros (d1 & d2 & d3 & d4 & r & [N1 A1] & [N2 A2] & [N3 A3] & [N4 A4] & ->).
    rewrite <- all_cls_digit in A1, A2, A3, A4.
    apply re_prefix_plus. eexists _, _. split; [reflexivity|]. split; [exact N1|].
    split; [exact A1|]. apply re_prefix_one. eexists _, _. split; [reflexivity|].
    split; [reflexivity|].
    apply re_prefix_plus. eexists _, _. split; [reflexivity|]. split; [exact N2|].
    split; [exact A2|]. apply re_prefix_one. eexists _, _. split; [reflexivity|].
    split; [reflexivity|].
    apply re_prefix_plus. eexists _, _. split; [reflexivity|]. split; [exact N3|].
    split; [exact A3|]. apply re_prefix_one. eexists _, _. split; [reflexivity|].
    split; [reflexivity|].
    apply re_prefix_plus. eexists _, _. split; [reflexivity|]. split; [exact N4|].
    split; [exact A4|]. destruct r; reflexivity.
Qed.

(** ** Claims on [extract_features_from_url] *)

(** C2: for every string [u], [extract_features_from_url u] is a total
    computation (no case of it raises) returning exactly 14 numbers. *)
Theorem extract_length_14 (u : string) :
  List.length (extract_features_from_url u) = 14%nat.
Proof. reflexivity. Qed.

(** C3: on ["a?b?c"] the query-length feature (index 12) is 1, the length of
    the piece between the two [?] that [url.split('?')[1]] keeps, while the
    text after the first [?] (the query, ["b?c"]) has length 3. *)
Lemma query_length_counterexample :
  feature 12 "a?b?c" = 1%Z /\ query_length_spec "a?b?c" = 3%Z /\
  feature 12 "a?b?c" <> query_length_spec "a?b?c".
Proof. vm_compute. split; [reflexivity|split; [reflexivity|discriminate]]. Qed.

(** C4: on ["http://192.168.1.1/login"] the suspicious-word flag (index 13)
    is 1 but the IP flag (index 3) is 0, since [re.match] only looks for the
    dotted quad at position 0, where the string has ["http"]. *)
Theorem ip_example_eval :
  feature 3 "http://192.168.1.1/login" = 0%Z /\
  feature 13 "http://192.168.1.1/login" = 1%Z.
Proof. split; vm_compute; reflexivity. Qed.

(** C10: the "/"-segment count (index 5) is at least 1 for every string,
    and it is 1 on the empty string. *)
Theorem segment_count_pos (u : string) :
  (1 <= feature 5 u)%Z /\ feature 5 "" = 1%Z.
Proof.
  split; [|reflexivity].
  unfold feature; simpl nth.
  pose proof (split_on_length_pos "/" u). lia.
Qed.

(** C8: the IP flag (index 3) is 1 exactly when the URL begins, at position
    0, with one or more digits, ".", one or more digits, ".", one or more
    digits, ".", one or more digits; otherwise it is 0. *)
Theorem ip_flag_iff (u : string) :
  (feature 3 u = 1%Z <-> dotted_quad_prefix u) /\
  (feature 3 u = 0%Z <-> ~ dotted_quad_prefix u).
Proof.
  change (feature 3 u) with (b2z (re_match ip_re u)).
  rewrite <- re_match_ip. unfold b2z.
  destruct (re_match ip_re u); split; split; congruence.
Qed.

(** ** Lemmas on [predict] *)

(** Run the monadic plumbing and split on every collaborator result. *)
Ltac step_pipeline :=
  unfold index0, append_row, bind, emit, lift, ret, raise;
  repeat (cbn [fst snd history trace] in *;
          match goal with
          | |- context [match ?x with _ => _ end] =>
              lazymatch x with
              | context [match _ with _ => _ end] => fail
              | _ => let E := fresh "E" in destruct x eqn:E
              end
          end).

Section Pipeline.
Context {Row Idx : Type} (env : Env Row Idx).

Lemma classify_url_effect (u : string) (st : St) :
  (history (snd (classify_url env u st)) = history st /\
   forall l, fst (classify_url env u st) = inr (Prediction l) -> is_dangerous l = false)
  \/
  (exists l, fst (classify_url env u st) = inr (Prediction l) /\ is_dangerous l = true /\
     history (snd (classify_url env u st)) = (history st ++ [(now_isoformat env, u, l)])%list).
Proof.
  unfold classify_url.
  remember (extract_features_from_url u) as f eqn:Hf.
  remember (existsb (fun tag => contains tag (lower u)) override_tags) as ov eqn:Hov.
  step_pipeline.
  all: try first
    [ left; split; [reflexivity | intros l' H; discriminate H]
    | left; split; [reflexivity | intros l' H; injection H as <-; assumption]
    | right; eexists; split; [reflexivity | split; [assumption | reflexivity]] ].
Qed.

(** The collaborators are reached only through [extract_features_from_url]:
    every run starts its trace with the extraction and the call of the
    scaler on the single row [extract_features_from_url u]. *)
Lemma classify_url_trace (u : string) (st : St) :
  exists t, trace (snd (classify_url env u st)) =
            (trace st ++ [EvExtract (JStr u); EvTransform [extract_features_from_url u]] ++ t)%list.
Proof.
  unfold classify_url.
  remember (extract_features_from_url u) as f eqn:Hf.
  remember (existsb (fun tag => contains tag (lower u)) override_tags) as ov eqn:Hov.
  step_pipeline.
  all: eexists; rewrite <- ?app_assoc; reflexivity.
Qed.

Lemma override_nonempty (u : string) :
  existsb (fun tag => contains tag (lower u)) override_tags = true -> u <> EmptyString.
Proof. intros H ->. discriminate H. Qed.

Lemma truthy_str (u : string) : u <> EmptyString -> truthy (JStr u) = true.
Proof. intros H. simpl. apply negb_true_iff, String.eqb_neq. exact H. Qed.

Lemma predict_str (data : list (string * JVal)) (u : string) (st : St) :
  dict_get "url" data = JStr u -> u <> EmptyString ->
  predict env data st = try_except (classify_url env u) (fun e => ret (Error e 500)) st.
Proof.
  intros Hu Hne. unfold predict. rewrite Hu, (truthy_str u Hne). reflexivity.
Qed.

End Pipeline.

(** ** Claims on [predict] *)

(** C1: when the URL contains, case-insensitively, one of "vulnweb",
    "acunetix", "testphp", "demo", then whatever class index the model
    predicts and whatever label it decodes to, [predict] answers "phishing"
    and appends the row (timestamp, URL, "phishing") to the history file
    (the file being writable). *)
Theorem override_forces_phishing {Row Idx : Type} (env : Env Row Idx)
    (data : list (string * JVal)) (st : St) (u : string) (scaled : list Row)
    (enc : Idx) (encs : list Idx) (decoded : string) (decs : list string) :
  dict_get "url" data = JStr u ->
  existsb (fun tag => contains tag (lower u)) override_tags = true ->
  scaler_transform env [extract_features_from_url u] = inr scaled ->
  model_predict env scaled = inr (enc :: encs) ->
  label_inverse_transform env [enc] = inr (decoded :: decs) ->
  open_history env = inr tt ->
  fst (predict env data st) = inr (Prediction "phishing") /\
  history (snd (predict env data st)) =
    (history st ++ [(now_isoformat env, u, "phishing")])%list.
Proof.
  intros Hu Hov Hs Hp Hd Ho.
  rewrite (predict_str env data u st Hu (override_nonempty u Hov)).
  unfold try_except, classify_url, index0, append_row, bind, emit, lift, ret, raise.
  rewrite Hs, Hp, Hd, Hov, Ho. cbn. split; reflexivity.
Qed.

(** C5 (as stated, refuted): the model, scaler and decoder succeed and the
    label is "phishing", but opening the history file raises; [predict]
    then answers with an error (code 500), not with the label. *)
Lemma sink_failure_counterexample :
  predict env_sink_fails [("url", JStr "http://example.com/x")] (mkSt [] [])
  = (inr (Error "PermissionError" 500),
     mkSt [] [EvExtract (JStr "http://example.com/x");
              EvTransform [extract_features_from_url "http://example.com/x"];
              EvPredict; EvDecode]).
Proof. vm_compute. reflexivity. Qed.

(** C5 (amended): when extraction, scaling, prediction and decoding succeed,
    the history write decides the answer only for a dangerous final label:
    if the label is dangerous and the write raises with message [msg],
    [predict] answers [Error msg 500] and records no row; if the label is
    not dangerous, the history file is not touched, whatever its state, and
    the label is answered. *)
Theorem sink_failure_is_error {Row Idx : Type} (env : Env Row Idx)
    (data : list (string * JVal)) (st : St) (u : string) (scaled : list Row)
    (enc : Idx) (encs : list Idx) (decoded : string) (decs : list string) (msg : string) :
  dict_get "url" data = JStr u -> u <> EmptyString ->
  scaler_transform env [extract_features_from_url u] = inr scaled ->
  model_predict env scaled = inr (enc :: encs) ->
  label_inverse_transform env [enc] = inr (decoded :: decs) ->
  let label := if existsb (fun tag => contains tag (lower u)) override_tags
               then "phishing" else decoded in
  (is_dangerous label = true -> open_history env = inl msg ->
   fst (predict env data st) = inr (Error msg 500) /\
   history (snd (predict env data st)) = history st) /\
  (is_dangerous label = false ->
   fst (predict env data st) = inr (Prediction label) /\
   history (snd (predict env data st)) = history st).
Proof.
  intros Hu Hne Hs Hp Hd label.
  rewrite (predict_str env data u st Hu Hne).
  unfold try_except, classify_url, index0, append_row, bind, emit, lift, ret, raise.
  rewrite Hs, Hp, Hd. cbn [fst snd history trace]. fold label.
  split.
  - intros Hdang Ho. rewrite Hdang, Ho. split; reflexivity.
  - intros Hsafe. rewrite Hsafe. split; reflexivity.
Qed.

(** C6: when the "url" field is absent (or null) or the empty string,
    [predict] answers [Error "No URL provided" 400] and leaves the state
    untouched: nothing is extracted, no collaborator is called and no row is
    appended. *)
Theorem missing_url_rejected {Row Idx : Type} (env : Env Row Idx)
    (data : list (string * JVal)) (st : St) :
  dict_get "url" data = JNull \/ dict_get "url" data = JStr EmptyString ->
  predict env data st = (inr (Error "No URL provided" 400), st).
Proof. unfold predict. intros [-> | ->]; reflexivity. Qed.

(** C7: a call whose answer is a label that is not, case-insensitively,
    "phishing", "malicious" or "unsafe" leaves the history unchanged; and
    every call either leaves the history unchanged or answers a dangerous
    label and appends exactly the row (timestamp, URL, label). *)
Theorem append_only_when_dangerous {Row Idx : Type} (env : Env Row Idx)
    (data : list (string * JVal)) (st : St) :
  (forall l, fst (predict env data st) = inr (Prediction l) -> is_dangerous l = false ->
             history (snd (predict env data st)) = history st) /\
  (history (snd (predict env data st)) = history st \/
   exists u l, dict_get "url" data = JStr u /\
               fst (predict env data st) = inr (Prediction l) /\
               is_dangerous l = true /\
               history (snd (predict env data st)) =
                 (history st ++ [(now_isoformat env, u, l)])%list).
Proof.
  unfold predict.
  destruct (truthy (dict_get "url" data)) eqn:Ht; cbn [negb].
  2: { split; [reflexivity|left; reflexivity]. }
  destruct (dict_get "url" data) as [| | | u | |] eqn:Hu;
    try (split; [reflexivity|left; reflexivity]).
  unfold try_except.
  destruct (classify_url_effect env u st) as [[Hh Hd] | (l & Hr & Hd & Hh)];
    destruct (classify_url env u st) as [[e | r] st'] eqn:E;
    cbn [fst snd] in *; unfold ret; cbn [fst snd].
  - split; [intros; exact Hh|left; exact Hh].
  - split; [intros; exact Hh|left; exact Hh].
  - discriminate Hr.
  - injection Hr as ->. split.
    + intros l' H Hnd. injection H as <-. congruence.
    + right. exists u, l. repeat split; assumption.
Qed.

(** C9: [extract_features_from_url] is a function of its argument alone:
    two calls on the same string give the same 14 values, and every run of
    the pipeline on that string, whatever its collaborators, history file and
    clock, hands exactly that vector to the scaler. *)
Theorem extract_deterministic (u : string) :
  extract_features_from_url u = extract_features_from_url u /\
  List.length (extract_features_from_url u) = 14%nat /\
  forall (Row Idx : Type) (env : Env Row Idx) (st : St),
    exists t, trace (snd (classify_url env u st)) =
              (trace st ++ [EvExtract (JStr u); EvTransform [extract_features_from_url u]] ++ t)%list.
Proof.
  split; [reflexivity|]. split; [reflexivity|].
  intros Row Idx env st. apply classify_url_trace.
Qed.

(** ** Witnesses *)

Lemma override_forces_phishing_witness :
  fst (predict env_benign [("url", JStr "http://vulnweb.com/testphp/x")] (mkSt [] []))
    = inr (Prediction "phishing") /\
  history (snd (predict env_benign [("url", JStr "http://vulnweb.com/testphp/x")] (mkSt [] [])))
    = [("2026-01-01T00:00:00", "http://vulnweb.com/testphp/x", "phishing")].
Proof.
  apply (override_forces_phishing env_benign _ (mkSt [] []) "http://vulnweb.com/testphp/x"
           [0%Z] 0%nat [] "benign" []); reflexivity.
Defined.

Lemma sink_failure_is_error_witness :
  (fst (predict env_sink_fails [("url", JStr "http://example.com/x")] (mkSt [] []))
     = inr (Error "PermissionError" 500) /\
   history (snd (predict env_sink_fails [("url", JStr "http://example.com/x")] (mkSt [] [])))
     = history (mkSt [] [])) /\
  (fst (predict env_benign [("url", JStr "http://example.com/x")] (mkSt [] []))
     = inr (Prediction "benign") /\
   history (snd (predict env_benign [("url", JStr "http://example.com/x")] (mkSt [] [])))
     = history (mkSt [] [])).
Proof.
  split.
  - refine (proj1 (sink_failure_is_error env_sink_fails _ (mkSt [] []) "http://example.com/x"
             [0%Z] 0%nat [] "phishing" [] "PermissionError" _ _ _ _ _) _ _);
      try reflexivity. discriminate.
  - refine (proj2 (sink_failure_is_error env_benign _ (mkSt [] []) "http://example.com/x"
             [0%Z] 0%nat [] "benign" [] "PermissionError" _ _ _ _ _) _);
      try reflexivity. discriminate.
Defined.

Lemma missing_url_rejected_witness :
  predict env_benign [] (mkSt [] []) = (inr (Error "No URL provided" 400), mkSt [] []) /\
  predict env_benign [("url", JStr "")] (mkSt [] []) =
    (inr (Error "No URL provided" 400), mkSt [] []).
Proof.
  split.
  - apply (missing_url_rejected env_benign [] (mkSt [] [])). left. reflexivity.
  - apply (missing_url_rejected env_benign _ (mkSt [] [])). right. reflexivity.
Defined.

(** ** Further properties of [extract_features_from_url] *)

(** Per-character facts, checked on all 256 characters. *)
Lemma char_classes_disjoint (c : ascii) :
  ((if Ascii.eqb c "." then 1 else 0) +
   ((if Ascii.eqb c "@" then 1 else 0) + ((if Ascii.eqb c "?" then 1 else 0) +
    ((if Ascii.eqb c "=" then 1 else 0) + ((if Ascii.eqb c "&" then 1 else 0) +
     ((if Ascii.eqb c "-" then 1 else 0) + ((if Ascii.eqb c "_" then 1 else 0) + 0)))))) +
   (if is_digit c then 1 else 0) + (if is_upper c then 1 else 0) <= 1)%nat.
Proof. destruct c as [[] [] [] [] [] [] [] []]; vm_compute; lia. Qed.

Lemma split_on_length (sep : ascii) (s : string) :
  List.length (split_on sep s) = (count_char sep s + 1)%nat.
Proof.
  induction s as [|c t IH]; simpl; [reflexivity|].
  destruct (Ascii.eqb c sep); simpl; [lia|].
  destruct (split_on sep t); simpl in *; lia.
Qed.

Lemma split_on_pieces_short (sep : ascii) (s : string) :
  Forall (fun p => String.length p <= String.length s)%nat (split_on sep s).
Proof.
  induction s as [|c t IH]; simpl; [constructor; [simpl; lia|constructor]|].
  destruct (Ascii.eqb c sep).
  - constructor; [simpl; lia|]. eapply Forall_impl; [|exact IH]. simpl; intros; lia.
  - destruct (split_on sep t) as [|p ps]; [constructor; [simpl; lia|constructor]|].
    inversion IH; subst. constructor; [simpl; lia|].
    eapply Forall_impl; [|eassumption]. simpl; intros; lia.
Qed.

Lemma nth_piece_short (sep : ascii) (s : string) (i : nat) :
  (String.length (nth i (split_on sep s) EmptyString) <= String.length s)%nat.
Proof.
  pose proof (split_on_pieces_short sep s) as H.
  destruct (Nat.lt_ge_cases i (List.length (split_on sep s))) as [Hi|Hi].
  - rewrite Forall_forall in H. apply H, nth_In, Hi.
  - rewrite nth_overflow by exact Hi. simpl. lia.
Qed.

Lemma count_char_app (c : ascii) (a b : string) :
  count_char c (a ++ b) = (count_char c a + count_char c b)%nat.
Proof. induction a as [|d t IH]; simpl; [reflexivity|rewrite IH; lia]. Qed.

Lemma count_pred_app (f : ascii -> bool) (a b : string) :
  count_pred f (a ++ b) = (count_pred f a + count_pred f b)%nat.
Proof. induction a as [|d t IH]; simpl; [reflexivity|rewrite IH; lia]. Qed.

Lemma digit_run_count (d : string) : digit_run d -> (1 <= count_pred is_digit d)%nat.
Proof.
  intros [Hne Ha]. destruct d as [|c t]; [contradiction|].
  simpl in *. apply andb_true_iff in Ha as [-> _]. lia.
Qed.

(** [re.search(p, s)] finds a match starting at some split point. *)
Lemma re_search_iff (ts : list tok) (s : string) :
  re_search ts s = true <-> exists p r, s = p ++ r /\ re_prefix r ts = true.
Proof.
  induction s as [|c t IH]; simpl; rewrite orb_true_iff.
  - split.
    + intros [H|H]; [now exists EmptyString, EmptyString|discriminate].
    + intros (p & r & E & H). destruct p; [|discriminate]. simpl in E; subst. now left.
  - split.
    + intros [H|H]; [now exists EmptyString, (String c t)|].
      apply IH in H as (p & r & -> & H). now exists (String c p), r.
    + intros (p & r & E & H). destruct p as [|c' p'].
      * simpl in E; subst. now left.
      * injection E as -> E. right. apply IH. now exists p', r.
Qed.

(** The dots (index 1), the special characters [@?=&-_] (index 2), the
    digits (index 7) and the upper-case letters (index 8) are disjoint
    character classes: together they count at most the length (index 0). *)
Theorem char_counts_le_length (u : string) :
  (feature 1 u + feature 2 u + feature 7 u + feature 8 u <= feature 0 u)%Z.
Proof.
  unfold feature, extract_features_from_url, zlen; cbn [nth fold_right special_chars].
  enough (count_char "." u +
          (count_char "@" u + (count_char "?" u + (count_char "=" u +
           (count_char "&" u + (count_char "-" u + (count_char "_" u + 0)))))) +
          count_pred is_digit u + count_pred is_upper u <= String.length u)%nat by lia.
  induction u as [|c t IH]; [simpl; lia|].
  cbn [count_char count_pred String.length].
  pose proof (char_classes_disjoint c). lia.
Qed.

(** The "/"-segment count (index 5) is one more than the number of "/";
    the subdomain estimate (index 10) is the number of "." minus one, and 0
    when the URL has fewer than two ".". *)
Theorem segment_counts (u : string) :
  feature 5 u = (Z.of_nat (count_char "/" u) + 1)%Z /\
  feature 10 u = Z.max 0 (feature 1 u - 1).
Proof.
  unfold feature, extract_features_from_url; cbn [nth].
  rewrite !split_on_length. split; [lia|].
  destruct (Nat.ltb_spec 2 (count_char "." u + 1)); lia.
Qed.

(** The host-segment length (index 9) and the query length (index 12) never
    exceed the length of the URL. *)
Theorem segment_lengths_bounded (u : string) :
  (feature 9 u <= feature 0 u)%Z /\ (feature 12 u <= feature 0 u)%Z.
Proof.
  unfold feature, extract_features_from_url, zlen; cbn [nth].
  pose proof (nth_piece_short "/" u 2). pose proof (nth_piece_short "?" u 1).
  split; [destruct (2 <? _)%nat|destruct (contains "?" u)]; lia.
Qed.

(** The port flag (index 11) is 1 exactly when a ":" is immediately followed
    by a digit somewhere in the URL. *)
Theorem port_flag_iff (u : string) :
  feature 11 u = 1%Z <->
  exists p c r, u = p ++ String ":" (String c r) /\ is_digit c = true.
Proof.
  change (feature 11 u) with (b2z (re_search port_re u)).
  transitivity (re_search port_re u = true); [unfold b2z; destruct (re_search _ _); split; congruence|].
  rewrite re_search_iff. unfold port_re, digits_plus. split.
  - intros (p & r & -> & H).
    apply re_prefix_one in H as (c1 & s1 & -> & C1 & H).
    apply re_prefix_one in H as (c2 & s2 & -> & C2 & _).
    exists p, c2, s2. split; [|exact C2].
    simpl in C1. apply Ascii.eqb_eq in C1. now subst.
  - intros (p & c & r & -> & Hc). exists p, (String ":" (String c r)). split; [reflexivity|].
    apply re_prefix_one. exists ":"%char, (String c r). split; [reflexivity|]. split; [reflexivity|].
    apply re_prefix_one. exists c, r. split; [reflexivity|]. split; [exact Hc|].
    destruct r; cbn; rewrite ?orb_true_r; reflexivity.
Qed.

(** A URL with the IP flag set (index 3) has at least three "." (index 1)
    and at least four digits (index 7). *)
Theorem ip_flag_counts (u : string) :
  feature 3 u = 1%Z -> (3 <= feature 1 u)%Z /\ (4 <= feature 7 u)%Z.
Proof.
  intros H. change (feature 3 u) with (b2z (re_match ip_re u)) in H.
  destruct (re_match ip_re u) eqn:E; [|discriminate].
  apply re_match_ip in E as (d1 & d2 & d3 & d4 & r & R1 & R2 & R3 & R4 & ->).
  apply digit_run_count in R1, R2, R3, R4.
  unfold feature, extract_features_from_url; cbn [nth].
  rewrite !count_char_app, !count_pred_app. cbn [count_char count_pred Ascii.eqb].
  cbn. lia.
Qed.

(** ** Further properties of [predict] *)

Section PipelineMore.
Context {Row Idx : Type} (env : Env Row Idx).

(** Without an exception, [classify_url] always answers a prediction. *)
Lemma classify_url_prediction (u : string) (st : St) (r : response) :
  fst (classify_url env u st) = inr r -> exists l, r = Prediction l.
Proof.
  unfold classify_url.
  remember (extract_features_from_url u) as f eqn:Hf.
  remember (existsb (fun tag => contains tag (lower u)) override_tags) as ov eqn:Hov.
  step_pipeline.
  all: intros H; try discriminate H; injection H as <-; eexists; reflexivity.
Qed.

(** The calls made by a run of [classify_url] that answers a label. *)
Lemma classify_url_success_trace (u : string) (st : St) (l : string) :
  fst (classify_url env u st) = inr (Prediction l) ->
  trace (snd (classify_url env u st)) =
    (trace st ++ [EvExtract (JStr u); EvTransform [extract_features_from_url u];
                  EvPredict; EvDecode] ++
     (if is_dangerous l then [EvAppend (now_isoformat env, u, l)] else []))%list.
Proof.
  unfold classify_url.
  remember (extract_features_from_url u) as f eqn:Hf.
  remember (existsb (fun tag => contains tag (lower u)) override_tags) as ov eqn:Hov.
  step_pipeline.
  all: intros H; try discriminate H; injection H as <-.
  all: try congruence.
  all: try match goal with H : is_dangerous _ = _ |- _ => rewrite H end.
  all: rewrite <- ?app_assoc; reflexivity.
Qed.

End PipelineMore.

(** Every exception raised while handling a request with a URL is caught:
    [predict] always answers a response, never an uncaught exception. *)
Theorem predict_never_raises {Row Idx : Type} (env : Env Row Idx)
    (data : list (string * JVal)) (st : St) :
  exists r, fst (predict env data st) = inr r.
Proof.
  unfold predict. destruct (negb (truthy (dict_get "url" data))); [eexists; reflexivity|].
  unfold try_except.
  destruct (dict_get "url" data) as [| | | u | |]; try (eexists; reflexivity).
  destruct (classify_url env u st) as [[e|r] st']; eexists; reflexivity.
Qed.

(** An error answer is either the 400 "No URL provided" for a falsy URL,
    with the state untouched, or a 500 for a truthy one; in neither case is
    a row appended to the history. *)
Theorem predict_error_cases {Row Idx : Type} (env : Env Row Idx)
    (data : list (string * JVal)) (st : St) (msg : string) (code : Z) :
  fst (predict env data st) = inr (Error msg code) ->
  (code = 400%Z /\ msg = "No URL provided" /\ truthy (dict_get "url" data) = false /\
   snd (predict env data st) = st) \/
  (code = 500%Z /\ truthy (dict_get "url" data) = true /\
   history (snd (predict env data st)) = history st).
Proof.
  intros H. unfold predict in *.
  destruct (truthy (dict_get "url" data)) eqn:Ht; cbn [negb] in *.
  2: { injection H as <- <-. left. repeat split. }
  right. unfold try_except in *.
  destruct (dict_get "url" data) as [| | | u | |] eqn:Hu;
    try (unfold emit, raise, bind, ret in *; cbn in *;
         injection H as <- <-; split; [reflexivity|split; reflexivity]).
  destruct (classify_url_effect env u st) as [[Hh _] | (l & Hr & _ & _)];
    destruct (classify_url env u st) as [[e | r] st'] eqn:E; cbn [fst snd] in *.
  - unfold ret in H; cbn in H. injection H as <- <-. now split.
  - injection H as ->.
    destruct (classify_url_prediction env u st (Error msg code)) as [l' Hl];
      [rewrite E; reflexivity|discriminate Hl].
  - discriminate Hr.
  - injection H as ->. discriminate Hr.
Qed.

(** A truthy URL that is not a string (a number, a list, an object, true)
    makes the extractor raise: [predict] answers a 500 error carrying that
    exception's text ([nonstr_error]), calls no collaborator and appends
    nothing. *)
Theorem non_string_url_error {Row Idx : Type} (env : Env Row Idx)
    (data : list (string * JVal)) (st : St) :
  truthy (dict_get "url" data) = true ->
  (forall s, dict_get "url" data <> JStr s) ->
  predict env data st =
    (inr (Error (nonstr_error (dict_get "url" data)) 500),
     mkSt (history st) (trace st ++ [EvExtract (dict_get "url" data)])%list).
Proof.
  intros Ht Hns. unfold predict. rewrite Ht. cbn [negb].
  destruct (dict_get "url" data) eqn:Hu; try reflexivity.
  exfalso. exact (Hns s eq_refl).
Qed.

(** When the scaler raises, [predict] answers a 500 error carrying the
    exception's message; the model and the decoder are never called and
    nothing is appended. *)
Theorem scaler_failure_error {Row Idx : Type} (env : Env Row Idx)
    (data : list (string * JVal)) (st : St) (u msg : string) :
  dict_get "url" data = JStr u -> u <> EmptyString ->
  scaler_transform env [extract_features_from_url u] = inl msg ->
  predict env data st =
    (inr (Error msg 500),
     mkSt (history st)
          (trace st ++ [EvExtract (JStr u); EvTransform [extract_features_from_url u]])%list).
Proof.
  intros Hu Hne Hs. rewrite (predict_str env data u st Hu Hne).
  unfold try_except, classify_url, bind, emit, lift, ret.
  rewrite Hs. cbn. rewrite <- app_assoc. reflexivity.
Qed.

(** When the model predicts no row ([model.predict(scaled)[0]] on an empty
    result), [predict] answers a 500 error with numpy's [IndexError]
    message; the decoder is never
    called and nothing is appended. *)
Theorem empty_prediction_error {Row Idx : Type} (env : Env Row Idx)
    (data : list (string * JVal)) (st : St) (u : string) (scaled : list Row) :
  dict_get "url" data = JStr u -> u <> EmptyString ->
  scaler_transform env [extract_features_from_url u] = inr scaled ->
  model_predict env scaled = inr [] ->
  predict env data st =
    (inr (Error "index 0 is out of bounds for axis 0 with size 0" 500),
     mkSt (history st)
          (trace st ++ [EvExtract (JStr u); EvTransform [extract_features_from_url u];
                        EvPredict])%list).
Proof.
  intros Hu Hne Hs Hp. rewrite (predict_str env data u st Hu Hne).
  unfold try_except, classify_url, index0, bind, emit, lift, ret, raise.
  rewrite Hs, Hp. cbn. rewrite <- !app_assoc. reflexivity.
Qed.

(** Without an override word, [predict] answers the decoded label itself
    (first decoded label of the first predicted class), provided the label
    is not dangerous or the history file can be opened. *)
Theorem decoded_label_returned {Row Idx : Type} (env : Env Row Idx)
    (data : list (string * JVal)) (st : St) (u : string) (scaled : list Row)
    (enc : Idx) (encs : list Idx) (decoded : string) (decs : list string) :
  dict_get "url" data = JStr u -> u <> EmptyString ->
  existsb (fun tag => contains tag (lower u)) override_tags = false ->
  scaler_transform env [extract_features_from_url u] = inr scaled ->
  model_predict env scaled = inr (enc :: encs) ->
  label_inverse_transform env [enc] = inr (decoded :: decs) ->
  is_dangerous decoded = false \/ open_history env = inr tt ->
  fst (predict env data st) = inr (Prediction decoded).
Proof.
  intros Hu Hne Hov Hs Hp Hd Hok. rewrite (predict_str env data u st Hu Hne).
  unfold try_except, classify_url, index0, append_row, bind, emit, lift, ret, raise.
  rewrite Hs, Hp, Hd, Hov. cbn [fst snd history trace].
  destruct (is_dangerous decoded) eqn:Hdg; [|reflexivity].
  destruct Hok as [Hf | Ho]; [discriminate Hf|]. rewrite Ho. reflexivity.
Qed.

(** A request answered with a label called each collaborator exactly once,
    in the order extract, scaler, model, decoder, and wrote one history row
    exactly when the label is dangerous. *)
Theorem success_calls_each_once {Row Idx : Type} (env : Env Row Idx)
    (data : list (string * JVal)) (st : St) (l : string) :
  fst (predict env data st) = inr (Prediction l) ->
  exists u, dict_get "url" data = JStr u /\
    trace (snd (predict env data st)) =
      (trace st ++ [EvExtract (JStr u); EvTransform [extract_features_from_url u];
                    EvPredict; EvDecode] ++
       (if is_dangerous l then [EvAppend (now_isoformat env, u, l)] else []))%list.
Proof.
  intros H. unfold predict in *.
  destruct (truthy (dict_get "url" data)) eqn:Ht; cbn [negb] in *; [|discriminate H].
  unfold try_except in *.
  destruct (dict_get "url" data) as [| | | u | |] eqn:Hu;
    try (unfold emit, raise, bind, ret in *; cbn in *; discriminate H).
  exists u. split; [reflexivity|].
  destruct (classify_url env u st) as [[e | r] st'] eqn:E; cbn [fst snd] in *.
  - unfold ret in H; discriminate H.
  - injection H as ->.
    pose proof (classify_url_success_trace env u st l) as T.
    rewrite E in T. apply T. reflexivity.
Qed.

(** ** Witnesses of the further properties *)

Lemma ip_flag_counts_witness :
  (3 <= feature 1 "10.0.0.1/x")%Z /\ (4 <= feature 7 "10.0.0.1/x")%Z.
Proof. apply (ip_flag_counts "10.0.0.1/x"). vm_compute. reflexivity. Defined.

Lemma predict_error_cases_witness :
  ((500 = 400)%Z /\ "ValueError" = "No URL provided" /\
   truthy (dict_get "url" [("url", JStr "http://a.b")]) = false /\
   snd (predict env_scaler_fails [("url", JStr "http://a.b")] (mkSt [] [])) = mkSt [] []) \/
  ((500 = 500)%Z /\ truthy (dict_get "url" [("url", JStr "http://a.b")]) = true /\
   history (snd (predict env_scaler_fails [("url", JStr "http://a.b")] (mkSt [] [])))
     = history (mkSt [] [])).
Proof.
  apply (predict_error_cases env_scaler_fails [("url", JStr "http://a.b")] (mkSt [] [])
           "ValueError" 500).
  vm_compute. reflexivity.
Defined.

Lemma non_string_url_error_witness :
  predict env_benign [("url", JNum 5)] (mkSt [] []) =
    (inr (Error "object of type 'int' has no len()" 500),
     mkSt (history (mkSt [] []))
          (trace (mkSt [] []) ++ [EvExtract (dict_get "url" [("url", JNum 5)])])%list).
Proof.
  apply (non_string_url_error env_benign [("url", JNum 5)] (mkSt [] [])).
  - reflexivity.
  - intros s. cbn. discriminate.
Defined.

Lemma scaler_failure_error_witness :
  predict env_scaler_fails [("url", JStr "http://a.b")] (mkSt [] []) =
    (inr (Error "ValueError" 500),
     mkSt (history (mkSt [] []))
          (trace (mkSt [] []) ++ [EvExtract (JStr "http://a.b");
                                  EvTransform [extract_features_from_url "http://a.b"]])%list).
Proof.
  apply (scaler_failure_error env_scaler_fails _ (mkSt [] []) "http://a.b" "ValueError").
  - reflexivity.
  - discriminate.
  - reflexivity.
Defined.

Lemma empty_prediction_error_witness :
  predict env_empty_model [("url", JStr "http://a.b")] (mkSt [] []) =
    (inr (Error "index 0 is out of bounds for axis 0 with size 0" 500),
     mkSt (history (mkSt [] []))
          (trace (mkSt [] []) ++ [EvExtract (JStr "http://a.b");
                                  EvTransform [extract_features_from_url "http://a.b"];
                                  EvPredict])%list).
Proof.
  apply (empty_prediction_error env_empty_model _ (mkSt [] []) "http://a.b" [0%Z]).
  - reflexivity.
  - discriminate.
  - reflexivity.
  - reflexivity.
Defined.

Lemma decoded_label_returned_witness :
  fst (predict env_benign [("url", JStr "http://a.b")] (mkSt [] [])) = inr (Prediction "benign").
Proof.
  apply (decoded_label_returned env_benign _ (mkSt [] []) "http://a.b" [0%Z] 0%nat [] "benign" []).
  - reflexivity.
  - discriminate.
  - vm_compute. reflexivity.
  - reflexivity.
  - reflexivity.
  - reflexivity.
  - left. vm_compute. reflexivity.
Defined.

Lemma success_calls_each_once_witness :
  exists u, dict_get "url" [("url", JStr "http://a.b")] = JStr u /\
    trace (snd (predict env_benign [("url", JStr "http://a.b")] (mkSt [] []))) =
      (trace (mkSt [] []) ++ [EvExtract (JStr u); EvTransform [extract_features_from_url u];
                              EvPredict; EvDecode] ++
       (if is_dangerous "benign" then [EvAppend (now_isoformat env_benign, u, "benign")]
        else []))%list.
Proof.
  apply (success_calls_each_once env_benign [("url", JStr "http://a.b")] (mkSt [] [])).
  vm_compute. reflexivity.
Defined.
